(** * SMPSO: speed-constrained multi-objective particle swarm optimisation

    A shallow embedding of [jmetal/algorithm/multiobjective/smpso.py] and the
    properties of its update cycle.

    Conventions of the embedding:
    - Python and numpy floats are idealised as real numbers, extended with
      [NaN] (numpy stores [nan] when [None] is assigned into a float array);
      rounding and infinities are not modelled.
    - Solutions are mutable objects: they live in a store and are named by
      references, so that aliasing and [copy] are visible.
    - A method is a computation over the machine state that either returns
      or raises; the state reached when an exception is raised is kept. *)

From Stdlib Require Import Reals Lra ZArith.
From stdpp Require Import base list strings gmap.

Local Open Scope R_scope.

(** ** Exceptions and results *)

(** The Python exceptions the methods can raise. [Dangling] is the model's
    own failure for a reference outside the store; Python has no such case
    and no well-formed state reaches it. *)
Inductive exn : Set :=
| TypeError
| AttributeError
| IndexError
| KeyError
| ValueError
| Dangling.

Inductive res (A : Type) : Type :=
| Ok (a : A)
| Raise (e : exn).
Arguments Ok {A} a.
Arguments Raise {A} e.

Definition is_error {A} (r : res A) : Prop :=
  match r with Ok _ => False | Raise _ => True end.

#[global] Instance res_ret : MRet res := @Ok.
#[global] Instance res_bind : MBind res := fun A B f m =>
  match m with Ok a => f a | Raise e => Raise e end.
#[global] Instance res_fmap : FMap res := fun A B f m =>
  match m with Ok a => Ok (f a) | Raise e => Raise e end.

(** ** Floats *)

Inductive float : Type :=
| Fin (x : R)
| NaN.

Definition Rltb (x y : R) : bool := if Rlt_dec x y then true else false.

Definition fadd (a b : float) : float :=
  match a, b with Fin x, Fin y => Fin (x + y) | _, _ => NaN end.
Definition fsub (a b : float) : float :=
  match a, b with Fin x, Fin y => Fin (x - y) | _, _ => NaN end.
Definition fmul (a b : float) : float :=
  match a, b with Fin x, Fin y => Fin (x * y) | _, _ => NaN end.
(** Division; the embedding only divides by the literal [2.0]. *)
Definition fdiv (a b : float) : float :=
  match a, b with Fin x, Fin y => Fin (x / y) | _, _ => NaN end.

(** [a < b] and [a > b] on floats: every comparison with [nan] is false. *)
Definition flt (a b : float) : bool :=
  match a, b with Fin x, Fin y => Rltb x y | _, _ => false end.
Definition fgt (a b : float) : bool := flt b a.

(** What numpy writes into a float array for a Python value that is either a
    float or [None]: [None] becomes [nan]. *)
Definition np_float (v : option float) : float :=
  match v with Some x => x | None => NaN end.

(** ** Indexing *)

(** [l[i]] for a Python list or a numpy array and an integer index. *)
Definition getitem {A} (l : list A) (i : nat) : res A :=
  match l !! i with Some x => Ok x | None => Raise IndexError end.

Definition setitem {A} (l : list A) (i : nat) (x : A) : res (list A) :=
  if decide (i < length l)%nat then Ok (<[i:=x]> l) else Raise IndexError.

(** [l[j]] where [j] is a float: a list (and a numpy array) refuses a float
    as an index, whatever its value. *)
Definition getitem_float {A} (l : list A) (j : float) : res A := Raise TypeError.

Definition setitem_float {A} (l : list A) (j : float) (x : A) : res (list A) :=
  Raise TypeError.

(** [d[k]] for a Python dict with string keys. *)
Definition dict_getitem {V} (d : gmap string V) (k : string) : res V :=
  match d !! k with Some v => Ok v | None => Raise KeyError end.

(** ** Data model *)

(** Solutions are objects; a reference is the position of the object in the
    store. *)
Definition ref := nat.

(** Modelled from the spec: the class [FloatSolution] is defined outside
    [smpso.py]. It has a vector of decision variables, a vector of
    objective values and an open attribute map (a dict, which [smpso.py]
    reads as [.attributes] everywhere but once); attribute values are other
    solutions, such as ["local_best"]. *)
Record Solution : Type := mkSolution {
  variables : list float;
  objectives : list float;
  attributes : gmap string ref
}.

(** [obj.attribute]: the class has no field of that name. *)
Definition Solution_attribute (s : Solution) : res (gmap string ref) :=
  Raise AttributeError.

(** Modelled from the spec: the problem (external collaborator) gives the
    number of variables and the per-index box bounds. *)
Record FloatProblem : Type := mkProblem {
  number_of_variables : nat;
  lower_bound : list float;
  upper_bound : list float
}.

(** The calls made to the stateful collaborators, in order, each with the
    object it was handed. *)
Inductive Call : Set :=
| LeadersAdd (r : ref)
| MutationExecute (r : ref).

(** The collaborators of the algorithm, all defined outside [smpso.py] and
    taken as parameters: the bounded archive [self.leaders] with its
    comparator, [self.dominance_comparator] and [self.mutation]. The
    stateful ones may read and rewrite the store; the comparators only
    read. *)
Class Collaborators : Type := {
  Archive : Type;
  solution_list : Archive -> list ref;
  leaders_add : ref -> list Solution -> Archive -> list Solution * Archive;
  leaders_compare : Archive -> list Solution -> ref -> ref -> Z;
  dominance_compare : Solution -> Solution -> Z;
  mutation_execute : ref -> list Solution -> list Solution
}.

(** What the name [Random] is bound to: the three operations the algorithm
    calls on it, over the generator state they thread. *)
Class RandomSource : Type := {
  Gen : Type;
  Random_random : Gen -> res R * Gen;
  Random_uniform : R -> R -> Gen -> res R * Gen;
  Random_sample : list ref -> nat -> Gen -> res (list ref) * Gen
}.

(** [from random import Random] binds the class. [Random.random()],
    [Random.uniform(a, b)] and [Random.sample(population, 2)] then call its
    methods without an instance: the first has no [self], the other two
    take their first argument as [self] and miss their last one. Each
    raises [TypeError]. *)
Definition Random_class : RandomSource := {|
  Gen := unit;
  Random_random := fun g => (Raise TypeError, g);
  Random_uniform := fun _ _ g => (Raise TypeError, g);
  Random_sample := fun _ _ g => (Raise TypeError, g)
|}.

(** A generator instance, as [random.Random(seed)] or the module-level
    functions give: it replays a tape of uniform draws from [[0,1)].
    [uniform(a, b)] is [a + (b - a) * random()]; [sample] takes the leading
    [k] members and raises [ValueError] when the population is smaller
    than [k]. *)
Definition tape_random (g : list R) : res R * list R :=
  match g with
  | x :: g' => (Ok x, g')
  | [] => (Ok 0, [])
  end.

Definition Random_tape : RandomSource := {|
  Gen := list R;
  Random_random := tape_random;
  Random_uniform := fun a b g =>
    match tape_random g with
    | (Ok x, g') => (Ok (a + (b - a) * x), g')
    | (Raise e, g') => (Raise e, g')
    end;
  Random_sample := fun population k g =>
    if decide (k <= length population)%nat
    then (Ok (take k population), g)
    else (Raise ValueError, g)
|}.

(** A source honours the contract of [sample] when it refuses a sample
    larger than the population. *)
Definition sample_refuses_large (RS : RandomSource) : Prop :=
  forall (population : list ref) (k : nat) (g : @Gen RS),
    (length population < k)%nat ->
    is_error (fst (Random_sample population k g)).

Section Algorithm.
Context {RS : RandomSource} {CO : Collaborators}.

(** The fields of an [SMPSO] object that the methods below read or write. *)
Record SMPSO : Type := mkSMPSO {
  problem : FloatProblem;
  swarm_size : nat;
  max_evaluations : Z;
  evaluations : Z;
  c1_min : R;
  c1_max : R;
  c2_min : R;
  c2_max : R;
  min_weight : R;
  max_weight : R;
  change_velocity1 : R;
  change_velocity2 : R;
  speed : list (list float);
  delta_max : list float;
  delta_min : list float;
  swarm : list ref;
  leaders : Archive
}.

Definition with_speed (sp : list (list float)) (s : SMPSO) : SMPSO :=
  mkSMPSO (problem s) (swarm_size s) (max_evaluations s) (evaluations s)
    (c1_min s) (c1_max s) (c2_min s) (c2_max s) (min_weight s) (max_weight s)
    (change_velocity1 s) (change_velocity2 s)
    sp (delta_max s) (delta_min s) (swarm s) (leaders s).

Definition with_leaders (a : Archive) (s : SMPSO) : SMPSO :=
  mkSMPSO (problem s) (swarm_size s) (max_evaluations s) (evaluations s)
    (c1_min s) (c1_max s) (c2_min s) (c2_max s) (min_weight s) (max_weight s)
    (change_velocity1 s) (change_velocity2 s)
    (speed s) (delta_max s) (delta_min s) (swarm s) a.

(** [self.swarm = ...]: the assignment the base class makes in [run]. *)
Definition with_swarm (sw : list ref) (s : SMPSO) : SMPSO :=
  mkSMPSO (problem s) (swarm_size s) (max_evaluations s) (evaluations s)
    (c1_min s) (c1_max s) (c2_min s) (c2_max s) (min_weight s) (max_weight s)
    (change_velocity1 s) (change_velocity2 s)
    (speed s) (delta_max s) (delta_min s) sw (leaders s).

(** The machine state: the algorithm object, the store of solutions, the
    generator and the trace of collaborator calls. *)
Record World : Type := mkWorld {
  self : SMPSO;
  store : list Solution;
  gen : Gen;
  calls : list Call
}.

(** ** The monad of methods *)

Definition M (A : Type) : Type := World -> res A * World.

#[global] Instance M_ret : MRet M := fun A a w => (Ok a, w).
#[global] Instance M_bind : MBind M := fun A B f m w =>
  match m w with
  | (Ok a, w') => f a w'
  | (Raise e, w') => (Raise e, w')
  end.

Definition raise {A} (e : exn) : M A := fun w => (Raise e, w).

Definition liftR {A} (r : res A) : M A := fun w => (r, w).

Definition get_self : M SMPSO := fun w => (Ok (self w), w).

Definition put_self (s : SMPSO) : M unit := fun w =>
  (Ok tt, mkWorld s (store w) (gen w) (calls w)).

(** Reading and overwriting the object behind a reference. *)
Definition deref (r : ref) : M Solution := fun w =>
  match store w !! r with
  | Some s => (Ok s, w)
  | None => (Raise Dangling, w)
  end.

Definition assign (r : ref) (s : Solution) : M unit := fun w =>
  if decide (r < length (store w))%nat
  then (Ok tt, mkWorld (self w) (<[r:=s]> (store w)) (gen w) (calls w))
  else (Raise Dangling, w).

Definition alloc (s : Solution) : M ref := fun w =>
  (Ok (length (store w)), mkWorld (self w) (store w ++ [s]) (gen w) (calls w)).

(** Modelled from the spec: [copy(solution)] dispatches to the solution
    class, which is defined outside [smpso.py]; the spec has it return an
    independent copy. The copy is a new object with its own variables,
    objectives and attribute map, equal to the original's. *)
Definition copy (r : ref) : M ref :=
  s ← deref r; alloc (mkSolution (variables s) (objectives s) (attributes s)).

(** [for i in range(n): body(i)] and [for x in l: body(x)]. *)
Fixpoint for_each {A} (l : list A) (body : A -> M unit) : M unit :=
  match l with
  | [] => mret tt
  | x :: l' => _ ← body x; for_each l' body
  end.

Definition for_range (n : nat) (body : nat -> M unit) : M unit :=
  for_each (seq 0 n) body.

(** The draws. *)
Definition with_gen {A} (f : Gen -> res A * Gen) : M A := fun w =>
  let (r, g) := f (gen w) in (r, mkWorld (self w) (store w) g (calls w)).

(** The calls to the stateful collaborators. *)
Definition call_leaders_add (r : ref) : M unit := fun w =>
  let (st, a) := leaders_add r (store w) (leaders (self w)) in
  (Ok tt, mkWorld (with_leaders a (self w)) st (gen w) (calls w ++ [LeadersAdd r])).

(** [self.leaders.get_comparator().compare(a, b)]: reads, changes nothing. *)
Definition call_leaders_compare (a b : ref) : M Z := fun w =>
  (Ok (leaders_compare (leaders (self w)) (store w) a b), w).

Definition call_mutation_execute (r : ref) : M unit := fun w =>
  (Ok tt, mkWorld (self w) (mutation_execute r (store w)) (gen w)
            (calls w ++ [MutationExecute r])).

(** [obj.attributes[key] = value]. *)
Definition set_attribute (r : ref) (key : string) (value : ref) : M unit :=
  s ← deref r;
  assign r (mkSolution (variables s) (objectives s) (<[key:=value]> (attributes s))).

(** [for j in particle.variables: body(j)]: the iterator walks the live
    list by position and hands out its elements, which are floats. Item
    assignment in the body cannot change the length of the list. *)
Definition for_in_variables (particle : ref) (body : float -> M unit) : M unit :=
  s ← deref particle;
  for_range (length (variables s)) (fun k =>
    s ← deref particle;
    j ← liftR (getitem (variables s) k);
    body j).

(** ** The constructor *)

(** [__init__]: the evaluation counter, the coefficient ranges, the zero
    velocity matrix and the velocity limits. [self.swarm] is assigned later
    by the base class. *)
Definition compute_delta_max (p : FloatProblem) : res (list float) :=
  mapM (fun i =>
          u ← getitem (upper_bound p) i;
          l ← getitem (lower_bound p) i;
          mret (fdiv (fsub u l) (Fin 2)))
       (seq 0 (number_of_variables p)).

Definition SMPSO_init (p : FloatProblem) (size : nat) (max_evals : Z)
    (archive : Archive) : res SMPSO :=
  dmax ← compute_delta_max p;
  mret {| problem := p;
          swarm_size := size;
          max_evaluations := max_evals;
          evaluations := 0;
          c1_min := 15 / 10;
          c1_max := 25 / 10;
          c2_min := 15 / 10;
          c2_max := 25 / 10;
          min_weight := 1 / 10;
          max_weight := 1 / 10;
          change_velocity1 := -1;
          change_velocity2 := -1;
          speed := replicate size (replicate (number_of_variables p) (Fin 0));
          delta_max := dmax;
          delta_min := (fun d => fmul (Fin (-1)) d) <$> dmax;
          swarm := [];
          leaders := archive |}.

(** ** The methods *)

Definition is_stopping_condition_reached (s : SMPSO) : bool :=
  (evaluations s >=? max_evaluations s)%Z.

(** [get_result]: the body evaluates [self.leaders.solution_list] and drops
    it; a method that ends without [return] gives [None]. *)
Definition get_result (s : SMPSO) : option (list ref) :=
  let _ := solution_list (leaders s) in
  None.

Definition initialize_global_best (swarm_arg : list ref) : M unit :=
  s ← get_self;
  for_each (swarm s) (fun particle =>
    call_leaders_add particle).

Definition initialize_particle_best (swarm_arg : list ref) : M unit :=
  s ← get_self;
  for_each (swarm s) (fun particle =>
    c ← copy particle;
    set_attribute particle "local_best" c).

Definition initialize_velocity (swarm_arg : list ref) : M unit := mret tt.

(** [__velocity_constriction(self, value, variable_index)]. The result is a
    Python value: a float, or [None] when neither test fires. *)
Definition __velocity_constriction (s : SMPSO) (value : float)
    (variable_index : nat) : res (option float) :=
  let result := None in
  dmax ← getitem (delta_max s) variable_index;
  result ← (if fgt value dmax
            then Some <$> getitem (delta_max s) variable_index
            else mret result);
  dmin ← getitem (delta_min s) variable_index;
  result ← (if flt value dmin
            then Some <$> getitem (delta_min s) variable_index
            else mret result);
  mret result.

(** [__constriction_coefficient(self, c1, c2)]. *)
Definition __constriction_coefficient (c1 c2 : R) : R :=
  let rho := c1 + c2 in
  if Rle_dec rho 4 then 1
  else 2 / (2 - rho - sqrt (rho ^ 2 - 4 * rho)).

(** [__select_global_best(self)]. *)
Definition __select_global_best : M ref :=
  s ← get_self;
  particles ← with_gen (Random_sample (solution_list (leaders s)) 2);
  p0 ← liftR (getitem particles 0);
  p1 ← liftR (getitem particles 1);
  c ← call_leaders_compare p0 p1;
  if (c <? 1)%Z then copy p0 else copy p1.

(** The argument of [__velocity_constriction] in the velocity assignment:
    the raw velocity, from the old velocity [v] and the entries of the
    personal best, of the particle (read twice) and of the global best. *)
Definition raw_velocity (c1 c2 r1 r2 wmax : R)
    (v best_particle_x particle_x best_global_x particle_x' : float) : float :=
  fmul (Fin (__constriction_coefficient c1 c2))
       (fadd (fadd (fmul (Fin wmax) v)
                   (fmul (Fin (c1 * r1)) (fsub best_particle_x particle_x)))
             (fmul (Fin (c2 * r2)) (fsub best_global_x particle_x'))).

(** [self.speed[i][var] = value]. *)
Definition set_speed (i var : nat) (value : float) : M unit :=
  s ← get_self;
  row ← liftR (getitem (speed s) i);
  row' ← liftR (setitem row var value);
  put_self (with_speed (<[i:=row']> (speed s)) s).

Definition get_speed (i var : nat) : M float :=
  s ← get_self;
  row ← liftR (getitem (speed s) i);
  liftR (getitem row var).

Definition get_variable (r : ref) (var : nat) : M float :=
  s ← deref r;
  liftR (getitem (variables s) var).

Definition update_velocity (swarm_arg : list ref) : M unit :=
  s ← get_self;
  for_range (swarm_size s) (fun i =>
    s ← get_self;
    pi ← liftR (getitem (swarm s) i);
    particle ← copy pi;
    pi ← liftR (getitem (swarm s) i);
    sol ← deref pi;
    lb ← liftR (dict_getitem (attributes sol) "local_best");
    best_particle ← copy lb;
    best_global ← __select_global_best;
    r1 ← with_gen Random_random;
    r2 ← with_gen Random_random;
    s ← get_self;
    c1 ← with_gen (Random_uniform (c1_min s) (c1_max s));
    c2 ← with_gen (Random_uniform (c2_min s) (c2_max s));
    let wmin := min_weight s in
    let wmax := max_weight s in
    for_range (number_of_variables (problem s)) (fun var =>
      v ← get_speed i var;
      bp ← get_variable best_particle var;
      x ← get_variable particle var;
      bg ← get_variable best_global var;
      x' ← get_variable particle var;
      s ← get_self;
      result ← liftR (__velocity_constriction s
                        (raw_velocity c1 c2 r1 r2 wmax v bp x bg x') var);
      set_speed i var (np_float result))).

(** [update_position]: the inner loop binds [j] to the elements of
    [particle.variables], not to their positions, and then indexes the
    list, the velocity row and the bounds with [j]. *)
Definition update_position (swarm_arg : list ref) : M unit :=
  s ← get_self;
  for_range (swarm_size s) (fun i =>
    s ← get_self;
    particle ← liftR (getitem (swarm s) i);
    for_in_variables particle (fun j =>
      (* particle.variables[j] += self.speed[i][j] *)
      sol ← deref particle;
      x ← liftR (getitem_float (variables sol) j);
      s ← get_self;
      row ← liftR (getitem (speed s) i);
      v ← liftR (getitem_float row j);
      vars ← liftR (setitem_float (variables sol) j (fadd x v));
      _ ← assign particle (mkSolution vars (objectives sol) (attributes sol));
      (* if particle.variables[j] < self.problem.lower_bound[j] *)
      sol ← deref particle;
      x ← liftR (getitem_float (variables sol) j);
      s ← get_self;
      lo ← liftR (getitem_float (lower_bound (problem s)) j);
      _ ← (if flt x lo then
             lo ← liftR (getitem_float (lower_bound (problem s)) j);
             sol ← deref particle;
             vars ← liftR (setitem_float (variables sol) j lo);
             _ ← assign particle (mkSolution vars (objectives sol) (attributes sol));
             s ← get_self;
             row ← liftR (getitem (speed s) i);
             v ← liftR (getitem_float row j);
             row' ← liftR (setitem_float row j (fmul v (Fin (change_velocity1 s))));
             put_self (with_speed (<[i:=row']> (speed s)) s)
           else mret tt);
      (* if particle.variables[j] > self.problem.upper_bound[j] *)
      sol ← deref particle;
      x ← liftR (getitem_float (variables sol) j);
      s ← get_self;
      hi ← liftR (getitem_float (upper_bound (problem s)) j);
      if fgt x hi then
        hi ← liftR (getitem_float (upper_bound (problem s)) j);
        sol ← deref particle;
        vars ← liftR (setitem_float (variables sol) j hi);
        _ ← assign particle (mkSolution vars (objectives sol) (attributes sol));
        s ← get_self;
        row ← liftR (getitem (speed s) i);
        v ← liftR (getitem_float row j);
        row' ← liftR (setitem_float row j (fmul v (Fin (change_velocity2 s))));
        put_self (with_speed (<[i:=row']> (speed s)) s)
      else mret tt)).

Definition perturbation (swarm_arg : list ref) : M unit :=
  s ← get_self;
  for_each (swarm s) (fun particle =>
    call_mutation_execute particle).

Definition update_global_best (swarm_arg : list ref) : M unit :=
  s ← get_self;
  for_each (swarm s) (fun particle =>
    c ← copy particle;
    call_leaders_add c).

(** [update_particle_best]: the second argument of the comparison reads
    [.attribute], and the assignment goes through the [swarm] parameter. *)
Definition update_particle_best (swarm_arg : list ref) : M unit :=
  s ← get_self;
  for_range (swarm_size s) (fun i =>
    s ← get_self;
    current ← liftR (getitem (swarm s) i);
    pi ← liftR (getitem (swarm s) i);
    sol ← deref pi;
    attribute ← liftR (Solution_attribute sol);
    lb ← liftR (dict_getitem attribute "local_best");
    a ← deref current;
    b ← deref lb;
    let flag := dominance_compare a b in
    if decide (flag <> 1%Z) then
      s ← get_self;
      pi ← liftR (getitem (swarm s) i);
      c ← copy pi;
      target ← liftR (getitem swarm_arg i);
      set_attribute target "local_best" c
    else mret tt).

End Algorithm.

Arguments SMPSO CO : clear implicits.
Arguments World RS CO : clear implicits.

(** ** Swarm creation and progress *)

(** The remaining collaborators, all defined outside [smpso.py] and taken
    as parameters: [self.problem.create_solution()], which builds a new
    solution (its content may depend on what exists already),
    [self.leaders.compute_density_estimator()], which may rewrite the
    archive and the objects of the store, and [self.observable.notify_all],
    which is handed the evaluation counter and the swarm. The computing
    time that [update_progress] also passes is a clock reading and is not
    modelled. *)
Class Services (CO : Collaborators) : Type := {
  create_solution : list Solution -> Solution;
  compute_density_estimator : list Solution -> Archive -> list Solution * Archive;
  notify_all : Z -> list ref -> list Solution -> list Solution
}.

Section Lifecycle.
Context {RS : RandomSource} {CO : Collaborators} {SV : Services CO}.

Definition with_evaluations (n : Z) (s : SMPSO CO) : SMPSO CO :=
  mkSMPSO (problem s) (swarm_size s) (max_evaluations s) n
    (c1_min s) (c1_max s) (c2_min s) (c2_max s) (min_weight s) (max_weight s)
    (change_velocity1 s) (change_velocity2 s)
    (speed s) (delta_max s) (delta_min s) (swarm s) (leaders s).


Definition call_compute_density_estimator : M unit := fun w : World RS CO =>
  let (st, a) := compute_density_estimator (store w) (leaders (self w)) in
  (Ok tt, mkWorld (with_leaders a (self w)) st (gen w) (calls w)).

Definition call_notify_all (evals : Z) (population : list ref) : M unit :=
  fun w : World RS CO =>
    (Ok tt, mkWorld (self w) (notify_all evals population (store w)) (gen w) (calls w)).

(** [init_progress] and [update_progress]. *)
Definition init_progress : M unit :=
  s ← get_self;
  _ ← put_self (with_evaluations (Z.of_nat (swarm_size s)) s);
  call_compute_density_estimator.

Definition update_progress : M unit :=
  s ← get_self;
  _ ← put_self (with_evaluations (evaluations s + Z.of_nat (swarm_size s)) s);
  _ ← call_compute_density_estimator;
  s ← get_self;
  call_notify_all (evaluations s) (swarm s).



End Lifecycle.

(** The state after [init_progress] and then [k] calls of
    [update_progress], as the loop of the base class makes them. *)
Definition after_progress {RS : RandomSource} {CO : Collaborators}
    {SV : Services CO} (k : nat) (w : World RS CO) : World RS CO :=
  Nat.iter k (fun w' => snd (update_progress w')) (snd (init_progress w)).

(** ** Predicates on computations *)

(** [m] takes every state to one related to it by [Rel], whether it returns
    or raises. *)
Definition preserves {RS : RandomSource} {CO : Collaborators}
    (Rel : World RS CO -> World RS CO -> Prop) {A} (m : M A) : Prop :=
  forall w, Rel w (snd (m w)).

(** [w'] differs from [w] at most in the velocity matrix, in the state of
    the generator and by objects added to the store. *)
Definition frame {RS : RandomSource} {CO : Collaborators}
    (w w' : World RS CO) : Prop :=
  (exists sp, self w' = with_speed sp (self w)) /\
  (exists extra, store w' = store w ++ extra) /\
  calls w' = calls w.

(** [m] raises from every state. *)
Definition always_raises {RS : RandomSource} {CO : Collaborators}
    {A} (m : M A) : Prop :=
  forall w : World RS CO, is_error (fst (m w)).

(** ** Collaborators and states used in examples *)

Definition fle (a b : float) : bool :=
  match a, b with Fin x, Fin y => negb (Rltb y x) | _, _ => false end.

(** Modelled from the spec: the dominance comparator is defined outside
    [smpso.py]. [compare(a, b)] is [-1] when every objective of [a] is at
    most that of [b] and one is strictly less, [1] when [b] dominates [a]
    in that sense, [0] otherwise. *)
Definition dominates (a b : list float) : bool :=
  forallb (fun p => fle p.1 p.2) (zip a b) && existsb (fun p => flt p.1 p.2) (zip a b).

Definition Dominance_compare (a b : Solution) : Z :=
  if dominates (objectives a) (objectives b) then (-1)%Z
  else if dominates (objectives b) (objectives a) then 1%Z
  else 0%Z.

(** A plain set of collaborators: an archive that keeps, in order, every
    object it is handed and whose comparator never prefers the second
    solution, the dominance comparator of the spec, and a mutation that
    changes nothing. *)
Definition Plain : Collaborators := {|
  Archive := list ref;
  solution_list := fun a => a;
  leaders_add := fun r st a => (st, a ++ [r]);
  leaders_compare := fun _ _ _ _ => 0%Z;
  dominance_compare := Dominance_compare;
  mutation_execute := fun _ st => st
|}.

(** A one-variable problem over [[0, 1]]. *)
Definition unit_interval : FloatProblem :=
  {| number_of_variables := 1; lower_bound := [Fin 0]; upper_bound := [Fin 1] |}.

(** The object built by [SMPSO(unit_interval, swarm_size=1,
    max_evaluations=100, ...)] around a given archive. *)
Definition smpso1 (archive : @Archive Plain) : SMPSO Plain :=
  {| problem := unit_interval;
     swarm_size := 1;
     max_evaluations := 100;
     evaluations := 0;
     c1_min := 15 / 10; c1_max := 25 / 10;
     c2_min := 15 / 10; c2_max := 25 / 10;
     min_weight := 1 / 10; max_weight := 1 / 10;
     change_velocity1 := -1; change_velocity2 := -1;
     speed := [[Fin 0]];
     delta_max := [fdiv (fsub (Fin 1) (Fin 0)) (Fin 2)];
     delta_min := [fmul (Fin (-1)) (fdiv (fsub (Fin 1) (Fin 0)) (Fin 2))];
     swarm := [];
     leaders := archive |}.

(** One particle with one variable and one objective, both [x]. *)
Definition particle_at (x : R) (attrs : gmap string ref) : Solution :=
  {| variables := [Fin x]; objectives := [Fin x]; attributes := attrs |}.

(** One particle at [0.5] with velocity [0.1]. *)
Definition world_position : World Random_class Plain :=
  @mkWorld Random_class Plain
    (with_swarm [0%nat] (with_speed [[Fin (1 / 10)]] (smpso1 [])))
    [particle_at (1 / 2) ∅]
    tt
    [].

(** A particle at [0.0] whose stored personal best is at [1.0]: the current
    particle dominates its personal best. *)
Definition world_best : World Random_class Plain :=
  @mkWorld Random_class Plain
    (with_swarm [0%nat] (smpso1 []))
    [particle_at 0 {["local_best" := 1%nat]}; particle_at 1 ∅]
    tt
    [].

(** One particle, an empty archive. *)
Definition world_archive : World Random_class Plain :=
  @mkWorld Random_class Plain
    (with_swarm [0%nat] (smpso1 []))
    [particle_at (1 / 2) ∅]
    tt
    [].

(** An archive with exactly one member, object 0. *)
Definition world_one_leader : World Random_class Plain :=
  @mkWorld Random_class Plain (smpso1 [0%nat]) [particle_at (1 / 2) ∅] tt [].

Definition tape_one_leader : World Random_tape Plain :=
  @mkWorld Random_tape Plain (smpso1 [0%nat]) [particle_at (1 / 2) ∅] [] [].

(** An archive with two members, objects 0 and 1. *)
Definition tape_two_leaders : World Random_tape Plain :=
  @mkWorld Random_tape Plain (smpso1 [0%nat; 1%nat])
    [particle_at (1 / 4) ∅; particle_at (3 / 4) ∅] [] [].

(** Object 0 is the particle, object 1 its personal best, objects 2 and 3
    the two members of the archive; all sit at [0.5]. The velocity of the
    particle is [0.1], the limits are [-0.5] and [0.5]. *)
Definition velocity_store : list Solution :=
  [particle_at (1 / 2) {["local_best" := 1%nat]}; particle_at (1 / 2) ∅;
   particle_at (1 / 2) ∅; particle_at (1 / 2) ∅].

Definition velocity_self : SMPSO Plain :=
  with_swarm [0%nat] (with_speed [[Fin (1 / 10)]] (smpso1 [2%nat; 3%nat])).

(** The state with [Random] bound as [smpso.py] binds it, to the class. *)
Definition world_velocity : World Random_class Plain :=
  @mkWorld Random_class Plain velocity_self velocity_store tt [].

(** The same state with a generator whose next draws are [r1 = 0],
    [r2 = 0] and, for [c1] and [c2], twice [0.5], so that [c1 = c2 = 2]. *)
Definition tape_velocity : World Random_tape Plain :=
  @mkWorld Random_tape Plain velocity_self velocity_store [0; 0; 1 / 2; 1 / 2] [].

Definition drawn_c : R := 15 / 10 + (25 / 10 - 15 / 10) * (1 / 2).

(** The raw velocity of the particle in that state. *)
Definition raw_velocity_tape : float :=
  raw_velocity drawn_c drawn_c 0 0 (1 / 10)
    (Fin (1 / 10)) (Fin (1 / 2)) (Fin (1 / 2)) (Fin (1 / 2)) (Fin (1 / 2)).

(** The state when the inner loop starts: three copies were made (of the
    particle, of its personal best and of the selected archive member) and
    the four draws were consumed. *)
Definition tape_velocity_drawn : World Random_tape Plain :=
  @mkWorld Random_tape Plain velocity_self
    (velocity_store
       ++ [particle_at (1 / 2) {["local_best" := 1%nat]};
           particle_at (1 / 2) ∅; particle_at (1 / 2) ∅])
    [] [].

(** Services for the examples: every created solution sits at [0.5], the
    density estimator and the observers change nothing. *)
Definition Plain_services : Services Plain := {|
  create_solution := fun _ => particle_at (1 / 2) ∅;
  compute_density_estimator := fun st a => (st, a);
  notify_all := fun _ _ st => st
|}.

(** [w'] has a velocity matrix of the same shape as [w]: as many rows, each
    as long as before. *)
Definition same_shape {RS : RandomSource} {CO : Collaborators}
    (w w' : World RS CO) : Prop :=
  length <$> speed (self w') = length <$> speed (self w).

(** What the progress methods leave alone in the algorithm object. *)
Definition same_setup {CO : Collaborators} (s s' : SMPSO CO) : Prop :=
  swarm_size s' = swarm_size s /\ max_evaluations s' = max_evaluations s /\
  swarm s' = swarm s /\ speed s' = speed s.


(** A swarm of two particles, objects 0 and 1, with no personal best yet. *)
Definition world_two_particles : World Random_tape Plain :=
  @mkWorld Random_tape Plain
    (with_swarm [0%nat; 1%nat] (smpso1 []))
    [particle_at (1 / 4) ∅; particle_at (3 / 4) ∅] [] [].

(** * Properties *)

(** ** Comparisons and single steps *)

Lemma Rltb_true (x y : R) : x < y -> Rltb x y = true.
Proof. intros H. unfold Rltb. destruct (Rlt_dec x y); [reflexivity | contradiction]. Qed.

Lemma Rltb_false (x y : R) : y <= x -> Rltb x y = false.
Proof. intros H. unfold Rltb. destruct (Rlt_dec x y); [lra | reflexivity]. Qed.

Lemma smpso1_init (archive : @Archive Plain) :
  SMPSO_init (CO:=Plain) unit_interval 1 100 archive = Ok (smpso1 archive).
Proof. reflexivity. Qed.

Section Steps.
Context {RS : RandomSource} {CO : Collaborators}.

Lemma bind_eq {A B} (m : M A) (f : A -> M B) (w : World RS CO) :
  (m ≫= f) w
  = match m w with
    | (Ok a, w') => f a w'
    | (Raise e, w') => (Raise e, w')
    end.
Proof. reflexivity. Qed.

Lemma copy_eq (w : World RS CO) (r : ref) (s : Solution) :
  store w !! r = Some s ->
  copy r w = (Ok (length (store w)),
              mkWorld (self w) (store w ++ [s]) (gen w) (calls w)).
Proof.
  intros H. unfold copy. rewrite bind_eq. unfold deref. rewrite H.
  destruct s. reflexivity.
Qed.

End Steps.

(** ** The velocity limits *)

Section VelocityConstriction.
Context {CO : Collaborators}.
Variables (s : SMPSO CO) (j : nat) (dmax dmin : R).
Hypothesis Hmax : delta_max s !! j = Some (Fin dmax).
Hypothesis Hmin : delta_min s !! j = Some (Fin dmin).

Lemma velocity_constriction_above (v : R) :
  dmax < v -> dmin <= v ->
  __velocity_constriction s (Fin v) j = Ok (Some (Fin dmax)).
Proof.
  intros Hv Hv'. unfold __velocity_constriction, getitem.
  rewrite Hmax, Hmin. cbn.
  rewrite (Rltb_true dmax v Hv). cbn.
  rewrite (Rltb_false v dmin Hv'). reflexivity.
Qed.

Lemma velocity_constriction_below (v : R) :
  v < dmin ->
  __velocity_constriction s (Fin v) j = Ok (Some (Fin dmin)).
Proof.
  intros Hv. unfold __velocity_constriction, getitem.
  rewrite Hmax, Hmin. cbn.
  destruct (Rltb dmax v); cbn;
    rewrite (Rltb_true v dmin Hv); reflexivity.
Qed.

Lemma velocity_constriction_inside (v : R) :
  dmin <= v -> v <= dmax ->
  __velocity_constriction s (Fin v) j = Ok None.
Proof.
  intros Hlo Hhi. unfold __velocity_constriction, getitem.
  rewrite Hmax, Hmin. cbn.
  rewrite (Rltb_false dmax v Hhi). cbn.
  rewrite (Rltb_false v dmin Hlo). reflexivity.
Qed.

End VelocityConstriction.

(** ** The constriction coefficient *)

Lemma constriction_coefficient_le_4 (c1 c2 : R) :
  c1 + c2 <= 4 -> __constriction_coefficient c1 c2 = 1.
Proof.
  intros H. unfold __constriction_coefficient.
  destruct (Rle_dec (c1 + c2) 4); [reflexivity | contradiction].
Qed.

Lemma sqrt_between (a x b : R) :
  0 <= a -> 0 <= b -> a * a < x -> x < b * b -> a < sqrt x < b.
Proof.
  intros Ha Hb Hax Hxb.
  assert (Hx : 0 <= x) by nra.
  split.
  - rewrite <- (sqrt_square a Ha) at 1. apply sqrt_lt_1; nra.
  - rewrite <- (sqrt_square b Hb) at 1. apply sqrt_lt_1; nra.
Qed.

Lemma constriction_coefficient_41 (c1 c2 : R) :
  c1 + c2 = 41 / 10 ->
  -73 / 100 < __constriction_coefficient c1 c2 < -729 / 1000.
Proof.
  intros H. unfold __constriction_coefficient. rewrite H.
  destruct (Rle_dec (41 / 10) 4) as [Hle | _]; [lra |].
  replace ((41 / 10) ^ 2 - 4 * (41 / 10)) with (41 / 100) by (simpl; lra).
  destruct (sqrt_between (64 / 100) (41 / 100) (641 / 1000)) as [Hlo Hhi]; try lra.
  set (d := 2 - 41 / 10 - sqrt (41 / 100)) in *.
  assert (Hd : -2741 / 1000 < d < -274 / 100) by (unfold d; lra).
  assert (Hq : 2 / d * d = 2) by (field; lra).
  set (q := 2 / d) in *.
  split; nra.
Qed.

(** ** Computations that stay within a relation on states *)

Section Preserves.
Context {RS : RandomSource} {CO : Collaborators}.
Variable Rel : World RS CO -> World RS CO -> Prop.
Hypothesis Rel_refl : forall w, Rel w w.
Hypothesis Rel_trans : forall a b c, Rel a b -> Rel b c -> Rel a c.

Lemma preserves_ret {A} (a : A) : preserves Rel (mret a).
Proof. intros w. apply Rel_refl. Qed.

Lemma preserves_raise {A} (e : exn) : preserves Rel (@raise _ _ A e).
Proof. intros w. apply Rel_refl. Qed.

Lemma preserves_liftR {A} (r : res A) : preserves Rel (liftR r).
Proof. intros w. apply Rel_refl. Qed.

Lemma preserves_get_self : preserves Rel get_self.
Proof. intros w. apply Rel_refl. Qed.

Lemma preserves_deref (r : ref) : preserves Rel (deref r).
Proof. intros w. unfold deref. destruct (store w !! r); apply Rel_refl. Qed.

Lemma preserves_bind {A B} (m : M A) (f : A -> M B) :
  preserves Rel m -> (forall a, preserves Rel (f a)) -> preserves Rel (m ≫= f).
Proof.
  intros Hm Hf w. unfold mbind, M_bind.
  specialize (Hm w). destruct (m w) as [[a | e] w']; simpl in *.
  - eapply Rel_trans; [exact Hm | apply Hf].
  - exact Hm.
Qed.

Lemma preserves_for_each {A} (l : list A) (body : A -> M unit) :
  (forall x, preserves Rel (body x)) -> preserves Rel (for_each l body).
Proof.
  intros Hbody. induction l as [| x l IH]; simpl.
  - apply preserves_ret.
  - apply preserves_bind; [apply Hbody | intros _; exact IH].
Qed.

Lemma preserves_for_range (n : nat) (body : nat -> M unit) :
  (forall i, preserves Rel (body i)) -> preserves Rel (for_range n body).
Proof. apply preserves_for_each. Qed.

End Preserves.

Section PreservesRaise.
Context {RS : RandomSource} {CO : Collaborators}.
Variable Rel : World RS CO -> World RS CO -> Prop.
Hypothesis Rel_refl : forall w, Rel w w.

(** Nothing after a failed step runs. *)
Lemma preserves_bind_raise {A B} (e : exn) (f : A -> M B) :
  preserves Rel (liftR (Raise e) ≫= f).
Proof. intros w. apply Rel_refl. Qed.

End PreservesRaise.

Ltac preserves_step refl trans :=
  first
    [ apply (preserves_ret _ refl)
    | apply (preserves_raise _ refl)
    | apply (preserves_liftR _ refl)
    | apply (preserves_get_self _ refl)
    | apply (preserves_deref _ refl)
    | apply (preserves_bind_raise _ refl)
    | apply (preserves_for_range _ refl trans); intros ?
    | apply (preserves_for_each _ refl trans); intros ?
    | apply (preserves_bind _ trans); [| intros ?] ].

Section ChangesNothing.
Context {RS : RandomSource} {CO : Collaborators}.

Let same_refl : forall w : World RS CO, w = w := fun w => eq_refl.
Let same_trans : forall a b c : World RS CO, a = b -> b = c -> a = c :=
  fun a b c H1 H2 => eq_trans H1 H2.

(** [update_position] never gets to change anything: whenever the inner
    loop runs, its first indexing raises. *)
Lemma update_position_changes_nothing (swarm_arg : list ref) (w : World RS CO) :
  snd (update_position swarm_arg w) = w.
Proof.
  symmetry. revert w. change (preserves eq (update_position swarm_arg)).
  unfold update_position, for_in_variables.
  repeat preserves_step same_refl same_trans.
Qed.

(** Nor does [update_particle_best]: reading [.attribute] raises before
    the comparison is made. *)
Lemma update_particle_best_changes_nothing (swarm_arg : list ref) (w : World RS CO) :
  snd (update_particle_best swarm_arg w) = w.
Proof.
  symmetry. revert w. change (preserves eq (update_particle_best swarm_arg)).
  unfold update_particle_best.
  repeat preserves_step same_refl same_trans.
Qed.

End ChangesNothing.

(** ** What the archive is handed *)

Section ArchiveCalls.
Context {RS : RandomSource} {CO : Collaborators}.

Lemma for_each_leaders_add (l : list ref) (w : World RS CO) :
  fst (for_each l call_leaders_add w) = Ok tt /\
  calls (snd (for_each l call_leaders_add w)) = calls w ++ (LeadersAdd <$> l) /\
  swarm (self (snd (for_each l call_leaders_add w))) = swarm (self w).
Proof.
  revert w. induction l as [| r l IH]; intros w; simpl.
  - rewrite app_nil_r. repeat split.
  - unfold mbind, M_bind, call_leaders_add at 1 3 5.
    destruct (leaders_add r (store w) (leaders (self w))) as [st a].
    destruct (IH (mkWorld (with_leaders a (self w)) st (gen w)
                    (calls w ++ [LeadersAdd r]))) as (H1 & H2 & H3).
    rewrite H1, H2, H3. simpl. rewrite <- app_assoc. repeat split.
Qed.

End ArchiveCalls.

Section ArchiveCopies.
Context {RS : RandomSource} {CO : Collaborators}.

(** The archive may add objects to the store but removes none. *)
Hypothesis leaders_add_grows : forall (r : ref) (st : list Solution) (a : Archive),
  (length st <= length (leaders_add r st a).1)%nat.



End ArchiveCopies.

(** Seeding hands over object 0, the particle itself, which the plain
    archive then holds; the per-generation update hands over object 1, a
    copy made for the purpose. *)
Example seeding_and_update_on_one_particle :
  calls (snd (initialize_global_best [] world_archive)) = [LeadersAdd 0%nat] /\
  leaders (self (snd (initialize_global_best [] world_archive)))
    = swarm (self world_archive) /\
  calls (snd (update_global_best [] world_archive)) = [LeadersAdd 1%nat] /\
  store (snd (update_global_best [] world_archive))
    = [particle_at (1 / 2) ∅; particle_at (1 / 2) ∅].
Proof. repeat split. Qed.

(** ** The frame of the velocity update *)

Section Frame.
Context {RS : RandomSource} {CO : Collaborators}.

Lemma with_speed_same (s : SMPSO CO) : with_speed (speed s) s = s.
Proof. destruct s. reflexivity. Qed.

Lemma frame_refl (w : World RS CO) : frame w w.
Proof.
  repeat split.
  - exists (speed (self w)). symmetry. apply with_speed_same.
  - exists []. symmetry. apply app_nil_r.
Qed.

Lemma frame_trans (a b c : World RS CO) : frame a b -> frame b c -> frame a c.
Proof.
  intros ([sp1 H1] & [e1 H2] & H3) ([sp2 H4] & [e2 H5] & H6).
  repeat split.
  - exists sp2. rewrite H4, H1. reflexivity.
  - exists (e1 ++ e2). rewrite H5, H2, app_assoc. reflexivity.
  - congruence.
Qed.

Lemma frame_alloc (s : Solution) : preserves frame (alloc s).
Proof.
  intros w. repeat split; simpl.
  - exists (speed (self w)). symmetry. apply with_speed_same.
  - exists [s]. reflexivity.
Qed.

Lemma frame_with_gen {A} (f : Gen -> res A * Gen) : preserves frame (with_gen f).
Proof.
  intros w. unfold with_gen. destruct (f (gen w)) as [r g]. repeat split; simpl.
  - exists (speed (self w)). symmetry. apply with_speed_same.
  - exists []. symmetry. apply app_nil_r.
Qed.

Lemma frame_call_leaders_compare (a b : ref) : preserves frame (call_leaders_compare a b).
Proof. intros w. apply frame_refl. Qed.

Lemma frame_set_speed (i var : nat) (value : float) :
  preserves frame (set_speed i var value).
Proof.
  intros w. unfold set_speed. rewrite bind_eq. cbn [get_self].
  rewrite bind_eq. unfold liftR at 1.
  destruct (getitem (speed (self w)) i) as [row | e]; [| apply frame_refl].
  rewrite bind_eq. unfold liftR at 1.
  destruct (setitem row var value) as [row' | e]; [| apply frame_refl].
  repeat split; simpl.
  - eexists. reflexivity.
  - exists []. symmetry. apply app_nil_r.
Qed.

Ltac frame_step :=
  first
    [ apply frame_alloc
    | apply frame_with_gen
    | apply frame_call_leaders_compare
    | apply frame_set_speed
    | preserves_step frame_refl frame_trans
    | match goal with
      | |- preserves _ (if ?c then _ else _) => destruct c
      end ].

Lemma frame_copy (r : ref) : preserves frame (copy r).
Proof. unfold copy. repeat frame_step. Qed.

Lemma frame_select_global_best : preserves frame __select_global_best.
Proof. unfold __select_global_best, copy. repeat frame_step. Qed.

Lemma frame_update_velocity (swarm_arg : list ref) :
  preserves frame (update_velocity swarm_arg).
Proof.
  unfold update_velocity, get_speed, get_variable. cbv zeta.
  repeat first [apply frame_copy | apply frame_select_global_best | frame_step].
Qed.

End Frame.

(** ** Selection of the global best *)

Section SelectGlobalBest.
Context {RS : RandomSource} {CO : Collaborators}.

Lemma select_global_best_small (w : World RS CO) :
  sample_refuses_large RS ->
  (length (solution_list (leaders (self w))) < 2)%nat ->
  is_error (fst (__select_global_best w)).
Proof.
  intros Hrefuse Hlen. unfold __select_global_best.
  rewrite bind_eq. cbn [get_self]. rewrite bind_eq. unfold with_gen.
  specialize (Hrefuse (solution_list (leaders (self w))) 2%nat (gen w) Hlen).
  destruct (Random_sample _ _ _) as [[ps | e] g]; simpl in *; [contradiction | exact I].
Qed.

Lemma select_global_best_pair (w : World RS CO) (p0 p1 : ref) (rest : list ref)
    (g' : Gen) (s0 s1 : Solution) :
  Random_sample (solution_list (leaders (self w))) 2 (gen w)
    = (Ok (p0 :: p1 :: rest), g') ->
  store w !! p0 = Some s0 ->
  store w !! p1 = Some s1 ->
  __select_global_best w
    = (Ok (length (store w)),
       mkWorld (self w)
         (store w ++ [if (leaders_compare (leaders (self w)) (store w) p0 p1 <? 1)%Z
                      then s0 else s1])
         g' (calls w)).
Proof.
  intros Hsample H0 H1. unfold __select_global_best.
  rewrite bind_eq. cbn [get_self]. rewrite bind_eq. unfold with_gen.
  rewrite Hsample. do 2 (rewrite bind_eq; cbn [liftR getitem lookup list_lookup]).
  rewrite bind_eq. cbn [call_leaders_compare self store].
  destruct (_ <? 1)%Z.
  - rewrite (copy_eq _ p0 s0) by exact H0. reflexivity.
  - rewrite (copy_eq _ p1 s1) by exact H1. reflexivity.
Qed.

End SelectGlobalBest.

Lemma Random_class_refuses_large : sample_refuses_large Random_class.
Proof. intros population k g _. exact I. Qed.

Lemma Random_tape_refuses_large : sample_refuses_large Random_tape.
Proof.
  intros population k g Hlen. simpl.
  destruct (decide (k <= length population)%nat); [lia | exact I].
Qed.

(** The same holds with a generator instance in place of the class: the
    sample of two is refused with [ValueError]. *)
Example one_member_archive_raises_with_generator :
  __select_global_best tape_one_leader = (Raise ValueError, tape_one_leader).
Proof. reflexivity. Qed.

(** ** Methods that cannot return *)

Section AlwaysRaises.
Context {RS : RandomSource} {CO : Collaborators}.

Lemma always_raises_liftR {A} (e : exn) : always_raises (liftR (A:=A) (Raise e)).
Proof. intros w. exact I. Qed.

Lemma always_raises_bind_l {A B} (m : M A) (f : A -> M B) :
  always_raises m -> always_raises (m ≫= f).
Proof.
  intros Hm w. rewrite bind_eq. specialize (Hm w).
  destruct (m w) as [[a | e] w']; simpl in *; [contradiction | exact I].
Qed.

Lemma always_raises_bind_r {A B} (m : M A) (f : A -> M B) :
  (forall a, always_raises (f a)) -> always_raises (m ≫= f).
Proof.
  intros Hf w. rewrite bind_eq.
  destruct (m w) as [[a | e] w']; simpl; [apply Hf | exact I].
Qed.

Lemma always_raises_for_range (n : nat) (body : nat -> M unit) :
  n <> 0%nat -> always_raises (body 0%nat) -> always_raises (for_range n body).
Proof.
  intros Hn Hbody. destruct n as [| n]; [contradiction |].
  unfold for_range. simpl. apply always_raises_bind_l. exact Hbody.
Qed.

End AlwaysRaises.

Ltac raises_step :=
  first
    [ apply always_raises_liftR
    | apply always_raises_bind_l; solve [apply always_raises_liftR]
    | apply always_raises_bind_r; intros ? ].

(** Whenever the swarm is not empty, [update_particle_best] raises: the
    first particle is never compared with its personal best. *)
Lemma update_particle_best_raises (RS : RandomSource) (CO : Collaborators)
    (swarm_arg : list ref) (w : World RS CO) :
  swarm_size (self w) <> 0%nat ->
  is_error (fst (update_particle_best swarm_arg w)).
Proof.
  intros Hn. unfold update_particle_best. rewrite bind_eq. cbn [get_self].
  apply always_raises_for_range; [exact Hn |].
  repeat raises_step.
Qed.

Lemma select_global_best_class_raises (CO : Collaborators) :
  always_raises (RS:=Random_class) __select_global_best.
Proof.
  unfold __select_global_best.
  apply always_raises_bind_r; intros s. apply always_raises_bind_l.
  intros w. exact I.
Qed.

(** X14. With [Random] bound to the class, as [smpso.py] binds it,
    [update_velocity] raises whenever the swarm is not empty. *)
Lemma update_velocity_class_raises (CO : Collaborators)
    (swarm_arg : list ref) (w : World Random_class CO) :
  swarm_size (self w) <> 0%nat ->
  is_error (fst (update_velocity swarm_arg w)).
Proof.
  intros Hn. unfold update_velocity. rewrite bind_eq. cbn [get_self].
  apply always_raises_for_range; [exact Hn |].
  do 7 (apply always_raises_bind_r; intros ?).
  apply always_raises_bind_l. apply select_global_best_class_raises.
Qed.

(** X15. Whenever the swarm is not empty and its first particle has at
    least one variable, [update_position] raises [TypeError] and leaves the
    state as it was. *)
Lemma update_position_raises (RS : RandomSource) (CO : Collaborators)
    (swarm_arg : list ref) (w : World RS CO)
    (p : ref) (x : float) (xs : list float) (ys : list float)
    (attrs : gmap string ref) :
  swarm_size (self w) <> 0%nat ->
  swarm (self w) !! 0%nat = Some p ->
  store w !! p = Some (mkSolution (x :: xs) ys attrs) ->
  update_position swarm_arg w = (Raise TypeError, w).
Proof.
  intros Hn Hp Hs.
  destruct (swarm_size (self w)) as [| n] eqn:Hsize; [contradiction |].
  unfold update_position, for_in_variables, for_range.
  unfold mbind at 1, M_bind at 1, get_self at 1. rewrite Hsize.
  cbn [seq for_each].
  unfold mbind, M_bind, get_self, liftR, deref, getitem.
  rewrite Hp, Hs. cbn [variables length seq for_each].
  unfold mbind, M_bind. rewrite Hs. cbn [variables lookup list_lookup].
  rewrite Hs. reflexivity.
Qed.

(** ** The velocity update on one particle *)

Lemma Dominance_compare_0_1 :
  Dominance_compare (particle_at 0 {["local_best" := 1%nat]}) (particle_at 1 ∅)
    = (-1)%Z.
Proof.
  unfold Dominance_compare, dominates. cbn.
  rewrite (Rltb_false 1 0), (Rltb_true 0 1) by lra. reflexivity.
Qed.

Lemma raw_velocity_tape_value : raw_velocity_tape = Fin (1 / 100).
Proof.
  unfold raw_velocity_tape, raw_velocity, drawn_c.
  rewrite constriction_coefficient_le_4 by lra.
  cbn [fmul fadd fsub]. f_equal. lra.
Qed.

(** Up to the call of [__velocity_constriction] the run is determined:
    what remains is the assignment of the one entry and the end of the two
    loops. *)
Lemma update_velocity_tape_unfolded :
  update_velocity [0%nat] tape_velocity
  = (_ ← (_ ← (result ← liftR (__velocity_constriction velocity_self
                                  raw_velocity_tape 0);
               set_speed 0 0 (np_float result));
          mret tt);
     mret tt) tape_velocity_drawn.
Proof. reflexivity. Qed.

Lemma update_velocity_tape :
  update_velocity [0%nat] tape_velocity
  = (Ok tt,
     @mkWorld Random_tape Plain
       (with_speed [[NaN]] velocity_self)
       (store tape_velocity_drawn) [] []).
Proof.
  rewrite update_velocity_tape_unfolded, raw_velocity_tape_value.
  rewrite (velocity_constriction_inside velocity_self 0
             ((1 - 0) / 2) (-1 * ((1 - 0) / 2)));
    [reflexivity | reflexivity | reflexivity | lra | lra].
Qed.

(** At an archive of one member the result is still [None]. *)
Example get_result_nonempty_archive :
  solution_list (leaders (smpso1 [0%nat])) = [0%nat] /\
  get_result (smpso1 [0%nat]) = None.
Proof. split; reflexivity. Qed.

(** * The statements C1 to C10 *)

(** C1. On a swarm of one particle at [0.5] with velocity [0.1], inside the
    bounds [[0, 1]], [update_position] raises [TypeError]; afterwards the
    particle is still at [0.5], not at [0.6]: the velocity was not added. *)
Theorem C1_update_position_raises :
  fst (update_position [0%nat] world_position) = Raise TypeError /\
  variables <$> (store (snd (update_position [0%nat] world_position)) !! 0%nat)
    = Some [Fin (1 / 2)] /\
  speed (self (snd (update_position [0%nat] world_position))) = [[Fin (1 / 10)]].
Proof. repeat split. Qed.

(** C2. [__velocity_constriction] on a raw velocity inside the limits: with
    [delta_max[0] = 0.5] and [delta_min[0] = -0.5], the value [0.0] is not
    passed through; the method returns [None]. (Above and below the limits
    it returns the limit, see [velocity_constriction_above] and
    [velocity_constriction_below].) *)
Theorem C2_velocity_constriction_inside_is_None :
  __velocity_constriction (smpso1 []) (Fin 0) 0 = Ok None.
Proof.
  apply (velocity_constriction_inside (smpso1 []) 0 ((1 - 0) / 2) (-1 * ((1 - 0) / 2)));
    [reflexivity | reflexivity | lra | lra].
Qed.

(** C3 (as stated, refuted). With [c1 = 2.0] and [c2 = 2.1], so that
    [c1 + c2 = 4.1], the constriction coefficient is not greater than 1. *)
Lemma C3_constriction_not_above_1 :
  ~ (1 < __constriction_coefficient 2 (21 / 10)).
Proof.
  intros H.
  assert (H41 : -73 / 100 < __constriction_coefficient 2 (21 / 10) < -729 / 1000)
    by (apply constriction_coefficient_41; lra).
  lra.
Qed.

(** C3 (amended). Whenever [c1 + c2 <= 4] the constriction coefficient is
    exactly 1, and whenever [c1 + c2 = 4.1] it is a negative real between
    -0.73 and -0.729. *)
Theorem C3_constriction_coefficient (c1 c2 : R) :
  (c1 + c2 <= 4 -> __constriction_coefficient c1 c2 = 1) /\
  (c1 + c2 = 41 / 10 ->
   -73 / 100 < __constriction_coefficient c1 c2 < -729 / 1000).
Proof.
  split.
  - apply constriction_coefficient_le_4.
  - apply constriction_coefficient_41.
Qed.

(** C3 at [c1 = c2 = 1.0] and at [c1 = 2.0], [c2 = 2.1]. *)
Lemma C3_constriction_coefficient_witness :
  __constriction_coefficient 1 1 = 1 /\
  -73 / 100 < __constriction_coefficient 2 (21 / 10) < -729 / 1000.
Proof.
  split.
  - apply (proj1 (C3_constriction_coefficient 1 1)). lra.
  - apply (proj2 (C3_constriction_coefficient 2 (21 / 10))). lra.
Defined.

(** C4. On one particle with velocity [0.1], with its personal best and the
    archive members at its own position: as [smpso.py] stands,
    [update_velocity] raises [TypeError] at the first use of [Random] and
    the velocity stays [0.1]. With a generator instance in place of the
    class, the draws [r1, r2, c1, c2] are made once for the particle and
    the raw velocity is [0.01], inside the limits [-0.5] and [0.5]; the
    velocity stored is then [nan], not [0.01]. *)
Theorem C4_update_velocity_on_one_particle :
  fst (update_velocity [0%nat] world_velocity) = Raise TypeError /\
  speed (self (snd (update_velocity [0%nat] world_velocity))) = [[Fin (1 / 10)]] /\
  raw_velocity_tape = Fin (1 / 100) /\
  fst (update_velocity [0%nat] tape_velocity) = Ok tt /\
  speed (self (snd (update_velocity [0%nat] tape_velocity))) = [[NaN]].
Proof.
  rewrite update_velocity_tape.
  repeat split. apply raw_velocity_tape_value.
Qed.

(** C5. On a particle that dominates its personal best (the comparison
    gives [-1], not [+1]), [update_particle_best] raises [AttributeError]
    and the personal best is not replaced: the attribute still names the
    old object, and no copy was made. *)
Theorem C5_update_particle_best_raises :
  Dominance_compare (particle_at 0 {["local_best" := 1%nat]}) (particle_at 1 ∅)
    = (-1)%Z /\
  update_particle_best [0%nat] world_best = (Raise AttributeError, world_best).
Proof. split; [apply Dominance_compare_0_1 | reflexivity]. Qed.

(** C6. [is_stopping_condition_reached] is the test
    [evaluations >= max_evaluations]; [get_result], however, returns [None]
    for every state of the algorithm, whatever the Leaders archive holds,
    and not the archive's solution list. *)
Theorem C6_stopping_and_result (CO : Collaborators) (s : SMPSO CO) :
  is_stopping_condition_reached s
    = bool_decide (max_evaluations s <= evaluations s)%Z /\
  get_result s = None.
Proof.
  split; [| reflexivity].
  unfold is_stopping_condition_reached.
  destruct (Z.geb_spec (evaluations s) (max_evaluations s)) as [H | H].
  - symmetry. apply bool_decide_eq_true_2. lia.
  - symmetry. apply bool_decide_eq_false_2. lia.
Qed.

(** C7 (as stated, refuted). On an archive with exactly one member the
    selection of the global best does not return a solution: it raises. *)
Lemma C7_one_member_archive_raises :
  ~ (exists (r : ref) (w' : World Random_class Plain),
       __select_global_best world_one_leader = (Ok r, w')).
Proof. intros (r & w' & H). discriminate H. Qed.

(** C7 (amended). Whatever [Random] is bound to, as long as its [sample]
    refuses a sample larger than the population: on an archive with fewer
    than two members (in particular exactly one) the selection of the
    global best fails with an error; and whenever the sample of two gives
    the members [p0] and [p1], the selection returns a new object that is a
    copy of [p0] if the archive's comparator gives less than 1 on
    [(p0, p1)], and a copy of [p1] otherwise. *)
Theorem C7_select_global_best (RS : RandomSource) (CO : Collaborators)
    (w : World RS CO) :
  sample_refuses_large RS ->
  ((length (solution_list (leaders (self w))) < 2)%nat ->
   is_error (fst (__select_global_best w))) /\
  (forall (p0 p1 : ref) (rest : list ref) (g' : Gen) (s0 s1 : Solution),
     Random_sample (solution_list (leaders (self w))) 2 (gen w)
       = (Ok (p0 :: p1 :: rest), g') ->
     store w !! p0 = Some s0 ->
     store w !! p1 = Some s1 ->
     __select_global_best w
       = (Ok (length (store w)),
          mkWorld (self w)
            (store w ++ [if (leaders_compare (leaders (self w)) (store w) p0 p1 <? 1)%Z
                         then s0 else s1])
            g' (calls w))).
Proof.
  intros Hrefuse. split.
  - apply select_global_best_small. exact Hrefuse.
  - apply select_global_best_pair.
Qed.

(** C7 with a generator instance: the archive of one member is refused,
    and of two members [0] and [1] the first is copied (the plain
    comparator gives 0). *)
Lemma C7_select_global_best_witness :
  is_error (fst (__select_global_best tape_one_leader)) /\
  __select_global_best tape_two_leaders
    = (Ok 2%nat,
       @mkWorld Random_tape Plain (smpso1 [0%nat; 1%nat])
         [particle_at (1 / 4) ∅; particle_at (3 / 4) ∅; particle_at (1 / 4) ∅]
         [] []).
Proof.
  split.
  - apply (proj1 (C7_select_global_best Random_tape Plain tape_one_leader
                    Random_tape_refuses_large)).
    simpl. lia.
  - apply (proj2 (C7_select_global_best Random_tape Plain tape_two_leaders
                    Random_tape_refuses_large)
             0%nat 1%nat [] [] (particle_at (1 / 4) ∅) (particle_at (3 / 4) ∅));
      reflexivity.
Defined.

(** C8. [initialize_global_best] hands [leaders.add] the swarm's own
    objects: the references it passes are, in order, exactly those stored
    in [self.swarm]; no copy is made on this path. *)
Theorem C8_initialize_global_best_hands_particles
    (RS : RandomSource) (CO : Collaborators)
    (swarm_arg : list ref) (w : World RS CO) :
  calls (snd (initialize_global_best swarm_arg w))
    = calls w ++ (LeadersAdd <$> swarm (self w)).
Proof.
  unfold initialize_global_best, mbind, M_bind, get_self.
  apply for_each_leaders_add.
Qed.

(** C9. A call of [update_velocity], whether it returns or raises, changes
    the algorithm object in its velocity matrix only (the swarm list, the
    archive and every other field stay as they were), leaves every object
    that was in the store as it was (the particles with their variables,
    objectives and attributes, and the personal bests they name), and calls
    neither the archive's [add] nor the mutation. *)
Theorem C9_update_velocity_frame (RS : RandomSource) (CO : Collaborators)
    (swarm_arg : list ref) (w : World RS CO) :
  (exists sp, self (snd (update_velocity swarm_arg w)) = with_speed sp (self w)) /\
  swarm (self (snd (update_velocity swarm_arg w))) = swarm (self w) /\
  leaders (self (snd (update_velocity swarm_arg w))) = leaders (self w) /\
  (forall (r : ref) (s : Solution),
     store w !! r = Some s ->
     store (snd (update_velocity swarm_arg w)) !! r = Some s) /\
  calls (snd (update_velocity swarm_arg w)) = calls w.
Proof.
  destruct (frame_update_velocity swarm_arg w) as ([sp Hsp] & [extra Hst] & Hc).
  repeat split.
  - exists sp. exact Hsp.
  - rewrite Hsp. reflexivity.
  - rewrite Hsp. reflexivity.
  - intros r s Hr. rewrite Hst. apply lookup_app_l_Some. exact Hr.
  - exact Hc.
Qed.

(** C10. [initialize_global_best], [initialize_particle_best],
    [perturbation] and [update_global_best] do not depend on their [swarm]
    argument: from the same state, any two argument lists give the same
    outcome and the same final state. *)
Theorem C10_swarm_argument_ignored (RS : RandomSource) (CO : Collaborators)
    (swarm1 swarm2 : list ref) (w : World RS CO) :
  initialize_global_best swarm1 w = initialize_global_best swarm2 w /\
  initialize_particle_best swarm1 w = initialize_particle_best swarm2 w /\
  perturbation swarm1 w = perturbation swarm2 w /\
  update_global_best swarm1 w = update_global_best swarm2 w.
Proof. repeat split. Qed.

(** * Further properties of the methods *)

(** ** The velocity limits, continued *)

(** X1. Outside the limits [__velocity_constriction] clamps: a value below
    [delta_min[j]] gives [delta_min[j]] (whatever [delta_max[j]] is, the
    second test has the last word), and a value above [delta_max[j]] and
    not below [delta_min[j]] gives [delta_max[j]]. *)
Theorem velocity_constriction_clamps (CO : Collaborators) (s : SMPSO CO)
    (j : nat) (dmax dmin v : R) :
  delta_max s !! j = Some (Fin dmax) ->
  delta_min s !! j = Some (Fin dmin) ->
  (v < dmin -> __velocity_constriction s (Fin v) j = Ok (Some (Fin dmin))) /\
  (dmin <= v -> dmax < v ->
   __velocity_constriction s (Fin v) j = Ok (Some (Fin dmax))).
Proof.
  intros Hmax Hmin. split.
  - intros Hv. exact (velocity_constriction_below s j dmax dmin Hmax Hmin v Hv).
  - intros Hlo Hhi.
    exact (velocity_constriction_above s j dmax dmin Hmax Hmin v Hhi Hlo).
Qed.

(** X1 on the unit interval, whose limits are [-0.5] and [0.5], at the
    values [-1] and [1]. *)
Lemma velocity_constriction_clamps_witness :
  __velocity_constriction (smpso1 []) (Fin (-1)) 0
    = Ok (Some (Fin (-1 * ((1 - 0) / 2)))) /\
  __velocity_constriction (smpso1 []) (Fin 1) 0 = Ok (Some (Fin ((1 - 0) / 2))).
Proof.
  destruct (velocity_constriction_clamps Plain (smpso1 []) 0
              ((1 - 0) / 2) (-1 * ((1 - 0) / 2)) (-1) eq_refl eq_refl) as [Hlow _].
  destruct (velocity_constriction_clamps Plain (smpso1 []) 0
              ((1 - 0) / 2) (-1 * ((1 - 0) / 2)) 1 eq_refl eq_refl) as [_ Hhigh].
  split; [apply Hlow | apply Hhigh]; lra.
Defined.

(** X2. Whenever [__velocity_constriction] returns a float, for any value
    (finite or [nan]) and any limits, that float is [delta_max[j]] or
    [delta_min[j]]: the value itself is never returned. *)
Theorem velocity_constriction_returns_a_limit (CO : Collaborators)
    (s : SMPSO CO) (value : float) (j : nat) (x : float) :
  __velocity_constriction s value j = Ok (Some x) ->
  delta_max s !! j = Some x \/ delta_min s !! j = Some x.
Proof.
  unfold __velocity_constriction, getitem.
  destruct (delta_max s !! j) as [dmax |]; [| discriminate].
  destruct (delta_min s !! j) as [dmin |].
  - cbn. destruct (fgt value dmax); cbn; destruct (flt value dmin); cbn;
      intros H; inversion H; subst; auto.
  - cbn. destruct (fgt value dmax); cbn; discriminate.
Qed.

(** X2 at a value above the upper limit of the unit interval. *)
Lemma velocity_constriction_returns_a_limit_witness :
  delta_max (smpso1 []) !! 0%nat = Some (Fin ((1 - 0) / 2)) \/
  delta_min (smpso1 []) !! 0%nat = Some (Fin ((1 - 0) / 2)).
Proof.
  apply (velocity_constriction_returns_a_limit Plain (smpso1 []) (Fin 1) 0).
  apply (velocity_constriction_above (smpso1 []) 0 ((1 - 0) / 2) (-1 * ((1 - 0) / 2)));
    [reflexivity | reflexivity | lra | lra].
Defined.

(** X3. An index outside either array of limits makes
    [__velocity_constriction] raise [IndexError], whatever the value. *)
Theorem velocity_constriction_index_error (CO : Collaborators)
    (s : SMPSO CO) (value : float) (j : nat) :
  (length (delta_max s) <= j)%nat \/ (length (delta_min s) <= j)%nat ->
  __velocity_constriction s value j = Raise IndexError.
Proof.
  intros H. unfold __velocity_constriction, getitem.
  destruct (delta_max s !! j) as [dmax |] eqn:Hmax; [| reflexivity].
  destruct H as [H | H].
  - apply lookup_lt_Some in Hmax. lia.
  - rewrite (lookup_ge_None_2 (delta_min s) j H). cbn.
    destruct (fgt value dmax); reflexivity.
Qed.

(** X3 at index 1 of a one-variable problem. *)
Lemma velocity_constriction_index_error_witness :
  __velocity_constriction (smpso1 []) (Fin 0) 1 = Raise IndexError.
Proof.
  apply velocity_constriction_index_error. left. simpl. lia.
Defined.

(** X4. On [nan], with the index inside both arrays,
    [__velocity_constriction] returns [None]: both tests are false. *)
Theorem velocity_constriction_nan (CO : Collaborators) (s : SMPSO CO) (j : nat) :
  (j < length (delta_max s))%nat ->
  (j < length (delta_min s))%nat ->
  __velocity_constriction s NaN j = Ok None.
Proof.
  intros Hmax Hmin. unfold __velocity_constriction, getitem.
  destruct (lookup_lt_is_Some_2 _ _ Hmax) as [dmax ->].
  destruct (lookup_lt_is_Some_2 _ _ Hmin) as [dmin ->].
  cbn. unfold fgt. destruct dmax, dmin; reflexivity.
Qed.

(** X4 on the unit interval. *)
Lemma velocity_constriction_nan_witness :
  __velocity_constriction (smpso1 []) NaN 0 = Ok None.
Proof. apply velocity_constriction_nan; simpl; lia. Defined.

(** ** The constriction coefficient, continued *)



(** ** The constructor *)

Section MapM.
Context {A B : Type} (f : A -> res B).

Lemma mapM_res_Ok (l : list A) (k : list B) :
  mapM f l = Ok k <-> Forall2 (fun x y => f x = Ok y) l k.
Proof.
  revert k. induction l as [| x l IH]; intros k; simpl.
  - split.
    + intros H. inversion H. constructor.
    + intros H. inversion H. reflexivity.
  - split.
    + intros H. destruct (f x) as [y | e] eqn:Hx; [| discriminate].
      cbn in H. destruct (mapM f l) as [k' | e]; [| discriminate].
      cbn in H. inversion H; subst. constructor; [exact Hx | apply IH; reflexivity].
    + intros H. inversion H as [| ? y ? k' Hx Hk]; subst.
      rewrite Hx. cbn. apply IH in Hk. rewrite Hk. reflexivity.
Qed.


End MapM.

Lemma delta_max_entry (p : FloatProblem) (i : nat) (y : float) :
  (u ← getitem (upper_bound p) i;
   l ← getitem (lower_bound p) i;
   mret (fdiv (fsub u l) (Fin 2))) = Ok y <->
  exists u l, upper_bound p !! i = Some u /\ lower_bound p !! i = Some l /\
              y = fdiv (fsub u l) (Fin 2).
Proof.
  unfold getitem. split.
  - destruct (upper_bound p !! i) as [u |]; [| discriminate].
    destruct (lower_bound p !! i) as [l |]; [| discriminate].
    cbn. intros H. inversion H. eauto.
  - intros (u & l & -> & -> & ->). reflexivity.
Qed.

Lemma compute_delta_max_Ok (p : FloatProblem) (dmax : list float) :
  compute_delta_max p = Ok dmax ->
  length dmax = number_of_variables p /\
  forall j u l, (j < number_of_variables p)%nat ->
    upper_bound p !! j = Some u -> lower_bound p !! j = Some l ->
    dmax !! j = Some (fdiv (fsub u l) (Fin 2)).
Proof.
  unfold compute_delta_max. intros H. apply mapM_res_Ok in H. split.
  - apply Forall2_length in H. rewrite length_seq in H. congruence.
  - intros j u l Hj Hu Hl.
    destruct (Forall2_lookup_l _ _ _ j j H) as (y & Hy & Hf).
    { apply lookup_seq_lt. exact Hj. }
    apply delta_max_entry in Hf. destruct Hf as (u' & l' & Hu' & Hl' & ->).
    rewrite Hy. congruence.
Qed.

Lemma SMPSO_init_Ok (CO : Collaborators) (p : FloatProblem)
    (size : nat) (max_evals : Z) (archive : Archive) (s : SMPSO CO) :
  SMPSO_init p size max_evals archive = Ok s ->
  length (delta_max s) = number_of_variables p /\
  length (delta_min s) = number_of_variables p /\
  (forall j u l, (j < number_of_variables p)%nat ->
     upper_bound p !! j = Some u -> lower_bound p !! j = Some l ->
     delta_max s !! j = Some (fdiv (fsub u l) (Fin 2)) /\
     delta_min s !! j = Some (fmul (Fin (-1)) (fdiv (fsub u l) (Fin 2)))) /\
  speed s = replicate size (replicate (number_of_variables p) (Fin 0)) /\
  evaluations s = 0%Z.
Proof.
  unfold SMPSO_init. destruct (compute_delta_max p) as [dmax | e] eqn:Hd;
    [| discriminate].
  cbn. intros H. inversion H; subst; clear H. cbn.
  destruct (compute_delta_max_Ok p dmax Hd) as [Hlen Hentry].
  repeat split.
  - exact Hlen.
  - rewrite length_fmap. exact Hlen.
  - apply Hentry; assumption.
  - rewrite list_lookup_fmap, (Hentry j u l) by assumption. reflexivity.
Qed.

(** X6. When the constructor succeeds, both arrays of limits have one entry
    per variable, [delta_max[j]] is [(upper_bound[j] - lower_bound[j]) / 2]
    and [delta_min[j]] is [-1] times that, the velocity matrix has
    [swarm_size] rows of [number_of_variables] zeros, and the evaluation
    counter is 0. *)
Theorem SMPSO_init_limits (CO : Collaborators) (p : FloatProblem)
    (size : nat) (max_evals : Z) (archive : Archive) (s : SMPSO CO) :
  SMPSO_init p size max_evals archive = Ok s ->
  length (delta_max s) = number_of_variables p /\
  length (delta_min s) = number_of_variables p /\
  (forall j u l, (j < number_of_variables p)%nat ->
     upper_bound p !! j = Some u -> lower_bound p !! j = Some l ->
     delta_max s !! j = Some (fdiv (fsub u l) (Fin 2)) /\
     delta_min s !! j = Some (fmul (Fin (-1)) (fdiv (fsub u l) (Fin 2)))) /\
  speed s = replicate size (replicate (number_of_variables p) (Fin 0)) /\
  evaluations s = 0%Z.
Proof. apply SMPSO_init_Ok. Qed.

(** X6 on the unit interval. *)
Lemma SMPSO_init_limits_witness :
  delta_max (smpso1 []) !! 0%nat = Some (fdiv (fsub (Fin 1) (Fin 0)) (Fin 2)) /\
  delta_min (smpso1 []) !! 0%nat
    = Some (fmul (Fin (-1)) (fdiv (fsub (Fin 1) (Fin 0)) (Fin 2))).
Proof.
  destruct (SMPSO_init_limits Plain unit_interval 1 100 [] (smpso1 [])
              (smpso1_init [])) as (_ & _ & H & _).
  apply (H 0%nat (Fin 1) (Fin 0)); [simpl; lia | reflexivity | reflexivity].
Defined.





(** ** Perturbation and the archive update *)

Section Perturbation.
Context {RS : RandomSource} {CO : Collaborators}.


End Perturbation.




(** ** The initial personal bests *)

Section InitialBest.
Context {RS : RandomSource} {CO : Collaborators}.

Lemma set_attribute_eq (w : World RS CO) (r : ref) (s : Solution)
    (key : string) (value : ref) :
  store w !! r = Some s ->
  set_attribute r key value w
  = (Ok tt,
     mkWorld (self w)
       (<[r := mkSolution (variables s) (objectives s)
                 (<[key := value]> (attributes s))]> (store w))
       (gen w) (calls w)).
Proof.
  intros H. unfold set_attribute. rewrite bind_eq. unfold deref. rewrite H.
  unfold assign. destruct (decide (r < length (store w))%nat) as [_ | Hn];
    [reflexivity |].
  apply lookup_lt_Some in H. contradiction.
Qed.

Local Abbreviation best_body :=
  (fun particle : ref => c ← copy particle; set_attribute particle "local_best" c).

Lemma for_each_initial_best (l : list ref) (w : World RS CO) :
  NoDup l ->
  Forall (fun p => (p < length (store w))%nat) l ->
  fst (for_each l best_body w) = Ok tt /\
  self (snd (for_each l best_body w)) = self w /\
  gen (snd (for_each l best_body w)) = gen w /\
  calls (snd (for_each l best_body w)) = calls w /\
  length (store (snd (for_each l best_body w))) = (length (store w) + length l)%nat /\
  (forall k p s, l !! k = Some p -> store w !! p = Some s ->
     store (snd (for_each l best_body w)) !! p
       = Some (mkSolution (variables s) (objectives s)
                 (<["local_best" := (length (store w) + k)%nat]> (attributes s))) /\
     store (snd (for_each l best_body w)) !! (length (store w) + k)%nat = Some s) /\
  (forall r, r ∉ l -> (r < length (store w))%nat ->
     store (snd (for_each l best_body w)) !! r = store w !! r).
Proof.
  unfold ref in *. intros Hnd. revert w.
  induction l as [| p l IH]; intros w Hval.
  - simpl. rewrite Nat.add_0_r.
    do 5 (split; [reflexivity |]). split.
    + intros k p s Hk. rewrite lookup_nil in Hk. discriminate.
    + reflexivity.
  - inversion Hnd as [| ? ? Hp Hnd']; subst.
    inversion Hval as [| ? ? Hpv Hval']; subst.
    destruct (lookup_lt_is_Some_2 (store w) p Hpv) as [sp Hsp].
    remember (length (store w)) as n eqn:Hn.
    set (sp' := mkSolution (variables sp) (objectives sp)
                  (<["local_best" := n]> (attributes sp))).
    set (w2 := mkWorld (self w) (<[p := sp']> (store w ++ [sp])) (gen w) (calls w)).
    assert (Hstep : for_each (p :: l) best_body w = for_each l best_body w2).
    { simpl. rewrite bind_eq. cbv beta.
      rewrite bind_eq, (copy_eq w p sp Hsp).
      rewrite (set_attribute_eq _ p sp).
      - rewrite <- Hn. reflexivity.
      - simpl. apply lookup_app_l_Some. exact Hsp. }
    unfold ref in *. rewrite Hstep.
    assert (Hlen2 : length (store w2) = S n).
    { unfold w2. simpl. rewrite length_insert, length_app. simpl. lia. }
    destruct (IH Hnd' w2) as (H1 & H2 & H3 & H4 & H5 & H6 & H7).
    { rewrite Hlen2. eapply Forall_impl; [exact Hval' |]. simpl. intros; lia. }
    rewrite Hlen2 in *.
    assert (Hold : forall r, r <> p -> (r < n)%nat -> store w2 !! r = store w !! r).
    { intros r Hr Hrn. unfold w2. simpl.
      rewrite list_lookup_insert_ne by congruence.
      apply lookup_app_l. lia. }
    assert (Hnl : n ∉ l).
    { intros Hin. rewrite Forall_forall in Hval'. specialize (Hval' n Hin). lia. }
    split; [exact H1 |]. split; [exact H2 |]. split; [exact H3 |].
    split; [exact H4 |]. split; [simpl; lia |]. split.
    + intros k q s Hk Hq. destruct k as [| k]; simpl in Hk.
      * injection Hk as <-.
        rewrite Hsp in Hq. injection Hq as <-.
        rewrite Nat.add_0_r. split.
        -- rewrite (H7 p Hp) by lia. unfold w2. simpl.
           apply list_lookup_insert_eq. rewrite length_app. simpl. lia.
        -- rewrite (H7 n Hnl) by lia. unfold w2. simpl.
           rewrite list_lookup_insert_ne by lia.
           rewrite lookup_app_r by lia. replace (n - length (store w))%nat with 0%nat by lia.
           reflexivity.
      * assert (Hin : q ∈ l) by (eapply list_elem_of_lookup_2; exact Hk).
        assert (Hne : q <> p) by (intros ->; contradiction).
        assert (Hqn : (q < n)%nat).
        { rewrite Forall_forall in Hval'. apply Hval'. exact Hin. }
        replace (n + S k)%nat with (S n + k)%nat by lia.
        apply (H6 k q s Hk). rewrite Hold by assumption. exact Hq.
    + intros r Hr Hrn.
      assert (Hrp : r <> p) by (intros ->; apply Hr; left).
      assert (Hrl : r ∉ l) by (intros Hin; apply Hr; right; exact Hin).
      rewrite (H7 r Hrl) by lia. apply Hold; assumption.
Qed.

End InitialBest.

(** X11. On a swarm of pairwise distinct particles that are objects of the
    store, [initialize_particle_best] returns normally; afterwards the
    [k]-th particle keeps its variables and objectives and its
    ["local_best"] attribute names a new object, the [k]-th one added to
    the store, which holds the particle as it was before the call. Objects
    outside the swarm, the algorithm object and the trace of collaborator
    calls are unchanged. *)
Theorem initialize_particle_best_stores_copies (RS : RandomSource)
    (CO : Collaborators) (swarm_arg : list ref) (w : World RS CO) :
  NoDup (swarm (self w)) ->
  Forall (fun p => (p < length (store w))%nat) (swarm (self w)) ->
  fst (initialize_particle_best swarm_arg w) = Ok tt /\
  self (snd (initialize_particle_best swarm_arg w)) = self w /\
  calls (snd (initialize_particle_best swarm_arg w)) = calls w /\
  (forall (k : nat) (p : ref) (s : Solution),
     swarm (self w) !! k = Some p -> store w !! p = Some s ->
     store (snd (initialize_particle_best swarm_arg w)) !! p
       = Some (mkSolution (variables s) (objectives s)
                 (<["local_best" := (length (store w) + k)%nat]> (attributes s))) /\
     store (snd (initialize_particle_best swarm_arg w)) !! (length (store w) + k)%nat
       = Some s) /\
  (forall r : ref, r ∉ swarm (self w) -> (r < length (store w))%nat ->
     store (snd (initialize_particle_best swarm_arg w)) !! r = store w !! r).
Proof.
  intros Hnd Hval.
  destruct (for_each_initial_best (swarm (self w)) w Hnd Hval)
    as (H1 & H2 & _ & H4 & _ & H6 & H7).
  unfold initialize_particle_best. rewrite bind_eq. cbn [get_self].
  split; [exact H1 |]. split; [exact H2 |]. split; [exact H4 |].
  split; [exact H6 | exact H7].
Qed.

(** X11 on two particles, for the second one. *)
Lemma initialize_particle_best_stores_copies_witness :
  store (snd (initialize_particle_best [] world_two_particles)) !! 1%nat
    = Some (mkSolution (variables (particle_at (3 / 4) ∅))
              (objectives (particle_at (3 / 4) ∅))
              (<["local_best" := (length (store world_two_particles) + 1)%nat]>
                 (attributes (particle_at (3 / 4) ∅)))) /\
  store (snd (initialize_particle_best [] world_two_particles))
    !! (length (store world_two_particles) + 1)%nat
    = Some (particle_at (3 / 4) ∅).
Proof.
  destruct (initialize_particle_best_stores_copies Random_tape Plain []
              world_two_particles) as (_ & _ & _ & H & _).
  - apply (bool_decide_unpack _). reflexivity.
  - repeat constructor.
  - apply (H 1%nat 1%nat (particle_at (3 / 4) ∅)); reflexivity.
Defined.

(** ** The velocity update, continued *)

Section Shape.
Context {RS : RandomSource} {CO : Collaborators}.

Lemma same_shape_refl (w : World RS CO) : same_shape w w.
Proof. reflexivity. Qed.

Lemma same_shape_trans (a b c : World RS CO) :
  same_shape a b -> same_shape b c -> same_shape a c.
Proof. unfold same_shape. intros H1 H2. rewrite H2. exact H1. Qed.

Lemma same_shape_alloc (s : Solution) : preserves same_shape (alloc s).
Proof. intros w. reflexivity. Qed.

Lemma same_shape_with_gen {A} (f : Gen -> res A * Gen) :
  preserves same_shape (with_gen f).
Proof. intros w. unfold with_gen. destruct (f (gen w)). reflexivity. Qed.

Lemma same_shape_call_leaders_compare (a b : ref) :
  preserves same_shape (call_leaders_compare a b).
Proof. intros w. reflexivity. Qed.

Lemma same_shape_set_speed (i var : nat) (value : float) :
  preserves same_shape (set_speed i var value).
Proof.
  intros w. unfold set_speed. rewrite bind_eq. cbn [get_self].
  rewrite bind_eq. unfold liftR at 1, getitem.
  destruct (speed (self w) !! i) as [row |] eqn:Hrow; [| reflexivity].
  rewrite bind_eq. unfold liftR at 1, setitem.
  destruct (decide (var < length row)%nat); [| reflexivity].
  unfold same_shape. simpl.
  rewrite list_fmap_insert, length_insert.
  apply list_insert_id. rewrite list_lookup_fmap, Hrow. reflexivity.
Qed.

Ltac shape_step :=
  first
    [ apply same_shape_alloc
    | apply same_shape_with_gen
    | apply same_shape_call_leaders_compare
    | apply same_shape_set_speed
    | preserves_step same_shape_refl same_shape_trans
    | match goal with
      | |- preserves _ (if ?c then _ else _) => destruct c
      end ].

Lemma same_shape_update_velocity (swarm_arg : list ref) :
  preserves same_shape (update_velocity swarm_arg).
Proof.
  unfold update_velocity, __select_global_best, copy, get_speed, get_variable.
  cbv zeta. repeat shape_step.
Qed.

End Shape.

(** X12. [update_velocity] never changes the shape of the velocity matrix:
    whether it returns or raises, the matrix has as many rows as before and
    each row is as long as before. *)
Theorem update_velocity_keeps_shape (RS : RandomSource) (CO : Collaborators)
    (swarm_arg : list ref) (w : World RS CO) :
  length <$> speed (self (snd (update_velocity swarm_arg w)))
    = length <$> speed (self w).
Proof. apply same_shape_update_velocity. Qed.

(** X13. When the first particle has no ["local_best"] attribute (the
    personal bests were not initialised), [update_velocity] raises
    [KeyError]; by then it has made one copy, of that particle, and has
    drawn nothing from the generator. *)
Theorem update_velocity_without_local_best (RS : RandomSource)
    (CO : Collaborators) (swarm_arg : list ref) (w : World RS CO)
    (p : ref) (s : Solution) :
  swarm_size (self w) <> 0%nat ->
  swarm (self w) !! 0%nat = Some p ->
  store w !! p = Some s ->
  attributes s !! "local_best" = None ->
  update_velocity swarm_arg w
    = (Raise KeyError, mkWorld (self w) (store w ++ [s]) (gen w) (calls w)).
Proof.
  intros Hn Hp Hs Hkey.
  destruct (swarm_size (self w)) as [| n] eqn:Hsize; [contradiction |].
  unfold update_velocity, for_range.
  rewrite bind_eq. cbn [get_self]. rewrite Hsize. cbn [seq for_each].
  rewrite bind_eq, bind_eq. cbn [get_self].
  rewrite bind_eq. unfold liftR at 1, getitem at 1. rewrite Hp.
  rewrite bind_eq, (copy_eq w p s Hs).
  rewrite bind_eq. unfold liftR at 1, getitem at 1. rewrite Hp.
  rewrite bind_eq. unfold deref at 1. cbn [store].
  rewrite (lookup_app_l_Some _ _ _ _ Hs).
  rewrite bind_eq. unfold liftR at 1, dict_getitem. rewrite Hkey.
  reflexivity.
Qed.

(** X13 on two particles without personal bests. *)
Lemma update_velocity_without_local_best_witness :
  update_velocity [] world_two_particles
    = (Raise KeyError,
       mkWorld (self world_two_particles)
         (store world_two_particles ++ [particle_at (1 / 4) ∅])
         (gen world_two_particles) (calls world_two_particles)).
Proof.
  apply (update_velocity_without_local_best Random_tape Plain []
           world_two_particles 0%nat (particle_at (1 / 4) ∅)).
  - simpl. lia.
  - reflexivity.
  - reflexivity.
  - apply lookup_empty.
Defined.

(** X16. Whenever the swarm is not empty and its first member is an object
    of the store, [update_particle_best] raises [AttributeError] and leaves
    the state as it was: no personal best is compared or replaced. *)
Theorem update_particle_best_attribute_error (RS : RandomSource)
    (CO : Collaborators) (swarm_arg : list ref) (w : World RS CO)
    (p : ref) (s : Solution) :
  swarm_size (self w) <> 0%nat ->
  swarm (self w) !! 0%nat = Some p ->
  store w !! p = Some s ->
  update_particle_best swarm_arg w = (Raise AttributeError, w).
Proof.
  intros Hn Hp Hs.
  destruct (swarm_size (self w)) as [| n] eqn:Hsize; [contradiction |].
  unfold update_particle_best, for_range.
  rewrite bind_eq. cbn [get_self]. rewrite Hsize. cbn [seq for_each].
  rewrite bind_eq, bind_eq. cbn [get_self].
  rewrite bind_eq. unfold liftR at 1, getitem at 1. rewrite Hp.
  rewrite bind_eq. unfold liftR at 1, getitem at 1. rewrite Hp.
  rewrite bind_eq. unfold deref at 1. rewrite Hs.
  reflexivity.
Qed.

(** X16 on a particle that dominates its personal best. *)
Lemma update_particle_best_attribute_error_witness :
  update_particle_best [0%nat] world_best = (Raise AttributeError, world_best).
Proof.
  apply (update_particle_best_attribute_error Random_class Plain [0%nat]
           world_best 0%nat (particle_at 0 {["local_best" := 1%nat]}));
    [simpl; lia | reflexivity | reflexivity].
Defined.

(** X14 on the one-particle state of the velocity update. *)
Lemma update_velocity_class_raises_witness :
  is_error (fst (update_velocity [0%nat] world_velocity)).
Proof. apply update_velocity_class_raises. simpl. lia. Defined.

(** X15 on one particle at [0.5]. *)
Lemma update_position_raises_witness :
  update_position [0%nat] world_position = (Raise TypeError, world_position).
Proof.
  apply (update_position_raises Random_class Plain [0%nat] world_position
           0%nat (Fin (1 / 2)) [] [Fin (1 / 2)] ∅);
    [simpl; lia | reflexivity | reflexivity].
Defined.

(** ** Progress and the stopping condition *)

Section Progress.
Context {RS : RandomSource} {CO : Collaborators} {SV : Services CO}.

Lemma init_progress_self (w : World RS CO) :
  fst (init_progress w) = Ok tt /\
  evaluations (self (snd (init_progress w))) = Z.of_nat (swarm_size (self w)) /\
  same_setup (self w) (self (snd (init_progress w))).
Proof.
  unfold init_progress. rewrite bind_eq. cbn [get_self].
  rewrite bind_eq. cbn [put_self]. unfold call_compute_density_estimator.
  cbn [self store]. destruct (compute_density_estimator _ _) as [st a].
  repeat split.
Qed.

Lemma update_progress_self (w : World RS CO) :
  fst (update_progress w) = Ok tt /\
  evaluations (self (snd (update_progress w)))
    = (evaluations (self w) + Z.of_nat (swarm_size (self w)))%Z /\
  same_setup (self w) (self (snd (update_progress w))).
Proof.
  unfold update_progress. rewrite bind_eq. cbn [get_self].
  rewrite bind_eq. cbn [put_self]. rewrite bind_eq.
  unfold call_compute_density_estimator.
  cbn [self store]. destruct (compute_density_estimator _ _) as [st a].
  rewrite bind_eq. cbn [get_self]. unfold call_notify_all. cbn.
  unfold same_setup. cbn. repeat split; reflexivity.
Qed.

Lemma after_progress_self (k : nat) (w : World RS CO) :
  evaluations (self (after_progress k w))
    = (Z.of_nat (swarm_size (self w)) * (Z.of_nat k + 1))%Z /\
  same_setup (self w) (self (after_progress k w)).
Proof.
  unfold after_progress. induction k as [| k IH].
  - simpl. destruct (init_progress_self w) as (_ & He & Hs).
    split; [rewrite He; lia | exact Hs].
  - rewrite Nat.iter_succ. destruct IH as [He (H1 & H2 & H3 & H4)].
    destruct (update_progress_self
                (Nat.iter k (fun w' => snd (update_progress w'))
                   (snd (init_progress w)))) as (_ & He' & (G1 & G2 & G3 & G4)).
    split.
    + rewrite He', He, H1. lia.
    + unfold same_setup. rewrite G1, G2, G3, G4. repeat split; assumption.
Qed.

End Progress.


(** X18. With a swarm that is not empty the stopping condition is reached
    after finitely many calls of [update_progress] and, once reached, it
    stays reached; with an empty swarm and a positive evaluation budget it
    is never reached. *)
Theorem stopping_condition_eventually (RS : RandomSource) (CO : Collaborators)
    (SV : Services CO) (w : World RS CO) :
  (swarm_size (self w) <> 0%nat ->
   exists k : nat, forall k' : nat, (k <= k')%nat ->
     is_stopping_condition_reached (self (after_progress k' w)) = true) /\
  (swarm_size (self w) = 0%nat -> (0 < max_evaluations (self w))%Z ->
   forall k : nat,
     is_stopping_condition_reached (self (after_progress k w)) = false).
Proof.
  split.
  - intros Hn. exists (Z.to_nat (max_evaluations (self w))). intros k' Hk.
    destruct (after_progress_self k' w) as [He (_ & Hm & _)].
    unfold is_stopping_condition_reached. rewrite He, Hm.
    apply Z.geb_le. nia.
  - intros H0 Hpos k.
    destruct (after_progress_self k w) as [He (_ & Hm & _)].
    unfold is_stopping_condition_reached. rewrite He, Hm, H0.
    destruct (Z.geb_spec (Z.of_nat 0 * (Z.of_nat k + 1)) (max_evaluations (self w)));
      [lia | reflexivity].
Qed.

(** X18 on a swarm of one particle with a budget of 100 evaluations. *)
Lemma stopping_condition_eventually_witness :
  exists k : nat, forall k' : nat, (k <= k')%nat ->
    is_stopping_condition_reached
      (self (after_progress (SV:=Plain_services) k' world_archive)) = true.
Proof.
  apply (proj1 (stopping_condition_eventually Random_class Plain Plain_services
                  world_archive)).
  simpl. lia.
Defined.

(** ** The initial swarm *)

Section InitialSwarm.
Context {RS : RandomSource} {CO : Collaborators} {SV : Services CO}.


End InitialSwarm.

